(** * Velero client bootstrap: factory and installer

    A shallow embedding of [pkg/client] (the client [factory]: [NewFactory],
    [BindFlags], [ClientConfig], [Client], [KubeClient], [DynamicClient], the
    three setters and [Namespace]) and of [pkg/install] ([Install]), with the
    small parts of the libraries they call ([pkg/errors], [pflag],
    [apimachinery]'s [schema]) written out next to them.

    Go conventions used throughout:
    - a value of interface or pointer type that may be [nil] is an [option];
    - a Go result [(T, error)] is the pair [(option T * option error)];
    - a method with a pointer receiver that assigns to a field returns the
      updated record. *)

From Stdlib Require Import ZArith Ascii String Floats.SpecFloat.
From stdpp Require Import base strings list gmap.

Local Open Scope string_scope.
Local Open Scope list_scope.

(** ** github.com/pkg/errors *)

Module errors.

(** An [error] value: a leaf error made by some library, a leaf with a stack
    recorded by [WithStack], or a cause wrapped with a message by [Wrapf]
    (the message is stored after formatting). *)
Inductive error : Type :=
| New (msg : string)
| WithStack (cause : error)
| Wrapf (msg : string) (cause : error).

(** [err.Error()]: [WithStack] prints its cause, [Wrapf] prints
    ["msg: cause"]. *)
Fixpoint Error (e : error) : string :=
  match e with
  | New msg => msg
  | WithStack cause => Error cause
  | Wrapf msg cause => msg +:+ ": " +:+ Error cause
  end.

(** [errors.Cause(err)]: the innermost error. *)
Fixpoint Cause (e : error) : error :=
  match e with
  | New msg => New msg
  | WithStack cause => Cause cause
  | Wrapf _ cause => Cause cause
  end.

End errors.

Export errors.

(** ** pkg/features *)

Module features.

(** Modelled from the spec: package [features] itself is not among the
    sources, only its test is.  "A set of enabled feature names supporting
    membership test, insertion, and listing in deterministic (insertion)
    order."  The set is the list of its names in insertion order, without
    repetition. *)
Definition FeatureFlagSet : Type := list string.

Definition Enabled (set : FeatureFlagSet) (name : string) : bool :=
  List.existsb (String.eqb name) set.

Definition Enable (set : FeatureFlagSet) (name : string) : FeatureFlagSet :=
  if Enabled set name then set else set ++ [name].

Definition NewFeatureFlagSet (flags : list string) : FeatureFlagSet :=
  fold_left Enable flags [].

Definition All (set : FeatureFlagSet) : list string := set.

End features.

(** ** k8s.io/apimachinery: schema and unstructured *)

Module schema.

Record GroupResource : Type := mkGR {
  gr_Group : string;
  gr_Resource : string
}.

Record GroupVersionResource : Type := mkGVR {
  Group : string;
  Version : string;
  Resource : string
}.

(** [cut sep s]: the text before and after the first occurrence of the
    character [sep] in [s], when there is one. *)
Fixpoint cut (sep : Ascii.ascii) (s : string) : option (string * string) :=
  match s with
  | EmptyString => None
  | String c rest =>
      if Ascii.eqb c sep then Some (EmptyString, rest)
      else match cut sep rest with
           | Some (before, after) => Some (String c before, after)
           | None => None
           end
  end.

(** [if i := strings.Index(gr, "."); i >= 0 { return GroupResource{Group:
    gr[i+1:], Resource: gr[:i]} }; return GroupResource{Resource: gr}] *)
Definition ParseGroupResource (gr : string) : GroupResource :=
  match cut "."%char gr with
  | Some (resource, group) => mkGR group resource
  | None => mkGR "" gr
  end.

Definition WithVersion (gr : GroupResource) (version : string)
  : GroupVersionResource :=
  mkGVR (gr_Group gr) version (gr_Resource gr).

End schema.

Module unstructured.

(** The fields of an unstructured object that the installer reads:
    [apiVersion], [kind], [metadata.name], [metadata.resourceVersion]. *)
Record Unstructured : Type := mkUnstructured {
  APIVersion : string;
  Kind : string;
  Name : string;
  ResourceVersion : string
}.

Definition GetKind (u : Unstructured) : string := Kind u.
Definition GetName (u : Unstructured) : string := Name u.
Definition GetResourceVersion (u : Unstructured) : string := ResourceVersion u.

End unstructured.

(** ** github.com/spf13/pflag *)

Module pflag.

(** One occurrence of a flag on a command line, after pflag has split it
    from its value: [--name value] (or [--name=value]) is [Long name value],
    [-n value] is [Short "n" value]. *)
Inductive Arg : Type :=
| Long (name value : string)
| Short (shorthand value : string).

Section FlagSet.

(** [V] is the type of the [Value]s bound to flags (pointers into the
    caller's memory), [Mem] that memory, and [set v s] is [v.Set(s)]. *)
Context {V Mem : Type}.
Variable set : V -> string -> Mem -> Mem * option error.

Record Flag : Type := mkFlag {
  Name : string;
  Shorthand : string;
  Value : V;
  DefValue : string
}.

Definition FlagSet : Type := list Flag.

Definition NewFlagSet : FlagSet := [].

Definition Lookup (f : FlagSet) (name : string) : option Flag :=
  List.find (fun flag => String.eqb (Name flag) name) f.

(** Lookup by the one-letter shorthand; a flag registered without one has
    the empty shorthand and is never found. *)
Definition ShorthandLookup (f : FlagSet) (c : string) : option Flag :=
  List.find
    (fun flag => negb (String.eqb (Shorthand flag) "")
                 && String.eqb (Shorthand flag) c) f.

Definition AddFlag (f : FlagSet) (flag : Flag) : FlagSet := f ++ [flag].

(** [sortFlags]: the flags by name, in the byte-wise order of
    [sort.Strings]. *)
Fixpoint insertFlag (flag : Flag) (sorted : list Flag) : list Flag :=
  match sorted with
  | [] => [flag]
  | x :: rest =>
      if String.leb (Name flag) (Name x) then flag :: sorted
      else x :: insertFlag flag rest
  end.

Definition sortFlags (flags : list Flag) : list Flag :=
  fold_right insertFlag [] flags.

(** The order in which [VisitAll] visits a flag set that keeps the default
    [SortFlags = true], as one made by [NewFlagSet] does: by name. *)
Definition VisitAll (f : FlagSet) : list Flag := sortFlags f.

(** [AddFlagSet]: [newSet.VisitAll(func(flag) { if f.Lookup(flag.Name) ==
    nil { f.AddFlag(flag) } })], which adds the flags of [newSet] whose
    name [f] does not have yet, in the order of [VisitAll]. *)
Definition AddFlagSet (f newSet : FlagSet) : FlagSet :=
  fold_left
    (fun acc flag =>
       match Lookup acc (Name flag) with
       | None => AddFlag acc flag
       | Some _ => acc
       end)
    (VisitAll newSet) f.

Definition lookupArg (f : FlagSet) (a : Arg) : option Flag * string * error :=
  match a with
  | Long name value =>
      (Lookup f name, value, New ("unknown flag: --" +:+ name))
  | Short c value =>
      (ShorthandLookup f c, value,
       New ("unknown shorthand flag: '" +:+ c +:+ "' in -" +:+ c))
  end.

(** [Parse]: the occurrences are handled from left to right, each one
    stored through the [Value] of its flag; the first unknown flag or
    rejected value ends the parse with its error. *)
Fixpoint Parse (f : FlagSet) (arguments : list Arg) (m : Mem)
  : Mem * option error :=
  match arguments with
  | [] => (m, None)
  | a :: rest =>
      match lookupArg f a with
      | (None, _, unknown) => (m, Some unknown)
      | (Some flag, value, _) =>
          match set (Value flag) value m with
          | (m', Some err) => (m', Some err)
          | (m', None) => Parse f rest m'
          end
      end
  end.

End FlagSet.

Arguments Flag : clear implicits.
Arguments FlagSet : clear implicits.
Arguments mkFlag {V}.

End pflag.

(** ** pkg/client: the factory *)

Module client.

Import pflag.

Definition float32 : Type := spec_float.
Definition int : Type := Z.

(** [strings.Split(s, sep)] for a one-character separator. *)
Fixpoint Split (sep : ascii) (s : string) : list string :=
  match s with
  | EmptyString => [""]
  | String c rest =>
      if Ascii.eqb c sep then "" :: Split sep rest
      else match Split sep rest with
           | head :: tail => String c head :: tail
           | [] => [String c ""]
           end
  end.

(** Modelled from the spec: the type [VeleroConfig], its methods and
    [LoadConfig] are declared in a file of this package that is not among
    the sources.  "Persisted config file: a JSON document at a fixed
    user-config location exposing at least namespace (string) and features
    (ordered sequence of strings)."  A key that the document lacks reads as
    the empty string, respectively the empty sequence. *)
Record VeleroConfig : Type := mkVeleroConfig {
  config_namespace : string;
  config_features : list string
}.

Definition VeleroConfig_Namespace (c : VeleroConfig) : string :=
  config_namespace c.

Definition VeleroConfig_Features (c : VeleroConfig) : list string :=
  config_features c.

(** The zero value of the type, which [var config VeleroConfig] declares. *)
Definition zeroVeleroConfig : VeleroConfig := mkVeleroConfig "" [].

(** Modelled from the spec: the constant [v1.DefaultNamespace] is declared
    in [pkg/apis/velero/v1], not among the sources; the spec gives the
    default as ["velero"]. *)
Definition DefaultNamespace : string := "velero".

(** What [NewFactory] reads from and writes to the process: the environment
    variables, the outcome of [LoadConfig()] and what was printed on the
    standard error stream. *)
Record OS : Type := mkOS {
  environ : gmap string string;
  LoadConfig : VeleroConfig * option error;
  Stderr : list string
}.

(** [os.Getenv]: the empty string when the variable is not set. *)
Definition Getenv (os : OS) (key : string) : string :=
  default "" (environ os !! key).

Definition Fprintf_Stderr (line : string) (os : OS) : OS :=
  mkOS (environ os) (LoadConfig os) (Stderr os ++ [line]).

(** The variables that the factory's flags are bound to: the addresses
    [&f.kubeconfig], [&f.namespace], [&f.kubecontext] of three string
    fields, and the address [&cmdFeatures] of the [flag.StringArray] that
    [NewFactory] declares. *)
Inductive stringPtr : Type :=
| ptr_kubeconfig
| ptr_namespace
| ptr_kubecontext.

Inductive Value : Type :=
| stringValue (p : stringPtr)
| StringArray_cmdFeatures.

Record factory : Type := mkFactory {
  flags : FlagSet Value;
  features : option features.FeatureFlagSet;
  kubeconfig : string;
  kubecontext : string;
  baseName : string;
  namespace : string;
  clientQPS : float32;
  clientBurst : int
}.

(** The memory that a factory and its flags live in: the factory object
    and the variable [cmdFeatures], which outlives [NewFactory] because its
    address is stored in the [features] flag. *)
Record Memory : Type := mkMemory {
  this : factory;
  cmdFeatures : list string
}.

Definition with_this (g : factory -> factory) (m : Memory) : Memory :=
  mkMemory (g (this m)) (cmdFeatures m).

(** [*p = val] for the three string fields. *)
Definition assign (p : stringPtr) (val : string) (f : factory) : factory :=
  match p with
  | ptr_kubeconfig =>
      mkFactory (flags f) (features f) val (kubecontext f) (baseName f)
        (namespace f) (clientQPS f) (clientBurst f)
  | ptr_namespace =>
      mkFactory (flags f) (features f) (kubeconfig f) (kubecontext f)
        (baseName f) val (clientQPS f) (clientBurst f)
  | ptr_kubecontext =>
      mkFactory (flags f) (features f) (kubeconfig f) val (baseName f)
        (namespace f) (clientQPS f) (clientBurst f)
  end.

(** [v.Set(s)].  For a string flag, [*p = s].  Modelled from the spec:
    [flag.StringArray] is declared in [pkg/cmd/util/flag], not among the
    sources; "features: comma-separated list", so its [Set] stores the
    comma-separated items of [s]. *)
Definition Set_ (v : Value) (s : string) (m : Memory) : Memory * option error :=
  match v with
  | stringValue p => (with_this (assign p s) m, None)
  | StringArray_cmdFeatures => (mkMemory (this m) (Split ","%char s), None)
  end.

Definition with_flags (fs : FlagSet Value) (f : factory) : factory :=
  mkFactory fs (features f) (kubeconfig f) (kubecontext f) (baseName f)
    (namespace f) (clientQPS f) (clientBurst f).

Definition with_features (s : features.FeatureFlagSet) (f : factory) : factory :=
  mkFactory (flags f) (Some s) (kubeconfig f) (kubecontext f) (baseName f)
    (namespace f) (clientQPS f) (clientBurst f).

(** [f.flags.StringVarP(p, name, shorthand, value, usage)]: stores the
    default through [p] and registers the flag ([StringVar] is the same with
    no shorthand).  The usage text is left out. *)
Definition StringVarP (p : stringPtr) (name shorthand value : string)
  (f : factory) : factory :=
  let f := assign p value f in
  with_flags (AddFlag (flags f) (mkFlag name shorthand (stringValue p) value)) f.

Definition StringVar (p : stringPtr) (name value : string) (f : factory)
  : factory :=
  StringVarP p name "" value f.

(** [f.flags.Var(&cmdFeatures, name, usage)]: the default shown is
    [cmdFeatures.String()], the items joined by commas. *)
Definition Var_cmdFeatures (name : string) (cmdFeatures : list string)
  (f : factory) : factory :=
  with_flags
    (AddFlag (flags f)
       (mkFlag name "" StringArray_cmdFeatures (String.concat "," cmdFeatures)))
    f.

Definition newline : string := String (ascii_of_nat 10) "".

(** [NewFactory(baseName)].  The bound names follow the source: the
    [config] that [if config, err := LoadConfig(); ...] declares is visible
    in the branches of that statement only, and the [config] read after it
    is the one declared by [var config VeleroConfig]. *)
Definition NewFactory (baseName : string) (os : OS) : Memory * OS :=
  let f :=
    mkFactory NewFlagSet None "" "" baseName "" (S754_zero false) 0%Z in
  let f := assign ptr_namespace (Getenv os "VELERO_NAMESPACE") f in
  let config := zeroVeleroConfig in
  let '(f, os) :=
    match LoadConfig os with
    | (config, None) =>
        if negb (String.eqb (VeleroConfig_Namespace config) "")
        then (assign ptr_namespace (VeleroConfig_Namespace config) f, os)
        else (f, os)
    | (config, Some err) =>
        (f, Fprintf_Stderr
              ("WARNING: error retrieving namespace from config file: "
               +:+ Error err +:+ newline) os)
    end in
  let f :=
    if String.eqb (namespace f) "" then assign ptr_namespace DefaultNamespace f
    else f in
  let f := StringVar ptr_kubeconfig "kubeconfig" "" f in
  let f := StringVarP ptr_namespace "namespace" "n" (namespace f) f in
  let f := StringVar ptr_kubecontext "kubecontext" "" f in
  let cmdFeatures : list string := [] in
  let f := Var_cmdFeatures "features" cmdFeatures f in
  let allFeatures := VeleroConfig_Features config ++ cmdFeatures in
  let f := with_features (features.NewFeatureFlagSet allFeatures) f in
  (mkMemory f cmdFeatures, os).

(** [f.BindFlags(flags)]: the caller's flag set after the call. *)
Definition BindFlags (f : factory) (flags : FlagSet Value) : FlagSet Value :=
  AddFlagSet flags (client.flags f).

Definition SetBasename (f : factory) (name : string) : factory :=
  mkFactory (flags f) (features f) (kubeconfig f) (kubecontext f) name
    (namespace f) (clientQPS f) (clientBurst f).

Definition SetClientQPS (f : factory) (qps : float32) : factory :=
  mkFactory (flags f) (features f) (kubeconfig f) (kubecontext f) (baseName f)
    (namespace f) qps (clientBurst f).

Definition SetClientBurst (f : factory) (burst : int) : factory :=
  mkFactory (flags f) (features f) (kubeconfig f) (kubecontext f) (baseName f)
    (namespace f) (clientQPS f) burst.

Definition Namespace (f : factory) : string := namespace f.

(** *** Vocabulary for the statements about namespace resolution *)

(** The namespace that the persisted config file gives: empty when the file
    could not be loaded or has none. *)
Definition configNamespace (os : OS) : string :=
  match LoadConfig os with
  | (config, None) => VeleroConfig_Namespace config
  | (_, Some _) => ""
  end.

(** No persisted config file.  [LoadConfig] is not among the sources, so
    both ways in which it can report a missing file are covered: an error,
    or an empty configuration without error. *)
Definition noConfigFile (os : OS) : Prop :=
  (exists config err, LoadConfig os = (config, Some err))
  \/ LoadConfig os = (zeroVeleroConfig, None).

Definition isNamespaceArg (a : Arg) : option string :=
  match a with
  | Long name value => if String.eqb "namespace" name then Some value else None
  | Short c value => if String.eqb "n" c then Some value else None
  end.

(** The value of the last [--namespace] or [-n] on the command line. *)
Fixpoint namespaceFlag (arguments : list Arg) : option string :=
  match arguments with
  | [] => None
  | a :: rest =>
      match namespaceFlag rest with
      | Some value => Some value
      | None => isNamespaceArg a
      end
  end.

(** The flags that [NewFactory] registers, for the default [ns] of the
    namespace flag. *)
Definition registered (ns : string) : FlagSet Value :=
  [ mkFlag "kubeconfig" "" (stringValue ptr_kubeconfig) "";
    mkFlag "namespace" "n" (stringValue ptr_namespace) ns;
    mkFlag "kubecontext" "" (stringValue ptr_kubecontext) "";
    mkFlag "features" "" StringArray_cmdFeatures "" ].

(** The same flags in the order in which [BindFlags] adds them to a new
    flag set. *)
Definition bound (ns : string) : FlagSet Value :=
  [ mkFlag "features" "" StringArray_cmdFeatures "";
    mkFlag "kubeconfig" "" (stringValue ptr_kubeconfig) "";
    mkFlag "kubecontext" "" (stringValue ptr_kubecontext) "";
    mkFlag "namespace" "n" (stringValue ptr_namespace) ns ].

(** The precedence in the words of the specification: "flag > env > config
    file > default".  An empty string stands for a source that gives no
    value. *)
Definition spec_precedence (flag : option string) (env config : string)
  : string :=
  match flag with
  | Some value => value
  | None =>
      if negb (String.eqb env "") then env
      else if negb (String.eqb config "") then config
      else "velero"
  end.

(** *** Client constructors

    [Config] (declared in a file of this package that is not among the
    sources) and the three [NewForConfig] constructors of the client
    libraries are parameters of what follows. *)

Section Constructors.

Context {RestConfig VeleroClientset KubernetesClientset DynamicInterface : Type}.

Variable Config :
  string -> string -> string -> float32 -> int ->
  option RestConfig * option error.
Variable clientset_NewForConfig :
  option RestConfig -> option VeleroClientset * option error.
Variable kubernetes_NewForConfig :
  option RestConfig -> option KubernetesClientset * option error.
Variable dynamic_NewForConfig :
  option RestConfig -> option DynamicInterface * option error.

Definition ClientConfig (f : factory) : option RestConfig * option error :=
  Config (kubeconfig f) (kubecontext f) (baseName f) (clientQPS f)
    (clientBurst f).

Definition Client (f : factory) : option VeleroClientset * option error :=
  let '(clientConfig, err) := ClientConfig f in
  match err with
  | Some err => (None, Some err)
  | None =>
      let '(veleroClient, err) := clientset_NewForConfig clientConfig in
      match err with
      | Some err => (None, Some (WithStack err))
      | None => (veleroClient, None)
      end
  end.

Definition KubeClient (f : factory)
  : option KubernetesClientset * option error :=
  let '(clientConfig, err) := ClientConfig f in
  match err with
  | Some err => (None, Some err)
  | None =>
      let '(kubeClient, err) := kubernetes_NewForConfig clientConfig in
      match err with
      | Some err => (None, Some (WithStack err))
      | None => (kubeClient, None)
      end
  end.

Definition DynamicClient (f : factory)
  : option DynamicInterface * option error :=
  let '(clientConfig, err) := ClientConfig f in
  match err with
  | Some err => (None, Some err)
  | None =>
      let '(dynamicClient, err) := dynamic_NewForConfig clientConfig in
      match err with
      | Some err => (None, Some (WithStack err))
      | None => (dynamicClient, None)
      end
  end.

(** A caller's use of a factory: a sequence of method calls, each
    constructor call handing its result to the caller. *)
Inductive Call : Type :=
| call_Client
| call_KubeClient
| call_DynamicClient
| call_SetBasename (name : string)
| call_SetClientQPS (qps : float32)
| call_SetClientBurst (burst : int).

Inductive Returned : Type :=
| ret_Client (r : option VeleroClientset * option error)
| ret_KubeClient (r : option KubernetesClientset * option error)
| ret_DynamicClient (r : option DynamicInterface * option error).

Definition call (c : Call) (f : factory) : factory * list Returned :=
  match c with
  | call_Client => (f, [ret_Client (Client f)])
  | call_KubeClient => (f, [ret_KubeClient (KubeClient f)])
  | call_DynamicClient => (f, [ret_DynamicClient (DynamicClient f)])
  | call_SetBasename name => (SetBasename f name, [])
  | call_SetClientQPS qps => (SetClientQPS f qps, [])
  | call_SetClientBurst burst => (SetClientBurst f burst, [])
  end.

(** The factory after the calls and what they returned, in order. *)
Fixpoint run (calls : list Call) (f : factory) : factory * list Returned :=
  match calls with
  | [] => (f, [])
  | c :: rest =>
      let '(f1, r1) := call c f in
      let '(f2, r2) := run rest f1 in
      (f2, r1 ++ r2)
  end.

End Constructors.

(** How a constructor's result [returned] relates to the result
    [configured] of [ClientConfig] and to the library constructor
    [construct]:
    - an error of [ClientConfig] is returned as it is, with no client;
    - an error of the library constructor is returned wrapped by
      [WithStack], which keeps its cause and its text, with no client;
    - a client that the library constructed without error is returned with
      a nil error;
    - a nil error is returned only when neither step had an error. *)
Definition propagates {RestConfig Handle : Type}
  (configured : option RestConfig * option error)
  (construct : option RestConfig -> option Handle * option error)
  (returned : option Handle * option error) : Prop :=
  (forall cfg e, configured = (cfg, Some e) -> returned = (None, Some e))
  /\ (forall cfg h e,
        configured = (cfg, None) -> construct cfg = (h, Some e) ->
        returned = (None, Some (WithStack e))
        /\ Cause (WithStack e) = Cause e /\ Error (WithStack e) = Error e)
  /\ (forall cfg h,
        configured = (cfg, None) -> construct cfg = (Some h, None) ->
        returned = (Some h, None))
  /\ (forall h,
        returned = (h, None) ->
        exists cfg, configured = (cfg, None) /\ construct cfg = (h, None)).

(** *** Vocabulary for the statements about the other flags *)

Definition isLongArg (name : string) (a : Arg) : option string :=
  match a with
  | Long n value => if String.eqb name n then Some value else None
  | Short _ _ => None
  end.

(** The value of the last [--name] on the command line. *)
Fixpoint longFlag (name : string) (arguments : list Arg) : option string :=
  match arguments with
  | [] => None
  | a :: rest =>
      match longFlag name rest with
      | Some value => Some value
      | None => isLongArg name a
      end
  end.

(** The namespace that [NewFactory] settles on before any flag is parsed. *)
Definition resolvedNamespace (os : OS) : string :=
  if negb (String.eqb (configNamespace os) "") then configNamespace os
  else if negb (String.eqb (Getenv os "VELERO_NAMESPACE") "")
       then Getenv os "VELERO_NAMESPACE"
       else DefaultNamespace.

(** The line that [NewFactory] prints when [LoadConfig] fails with [err]. *)
Definition warning (err : error) : string :=
  "WARNING: error retrieving namespace from config file: "
  +:+ Error err +:+ newline.

End client.

(** Stand-ins for the client libraries, to evaluate the constructors on. *)

Module fakes.

Import client.

(** A connection configuration records what it was built from. *)
Record RestConfig : Type := mkRestConfig {
  rc_kubeconfig : string;
  rc_kubecontext : string;
  rc_UserAgent : string;
  rc_QPS : float32;
  rc_Burst : int
}.

(** Fails for the kubeconfig path [/missing]. *)
Definition Config (kubeconfig kubecontext baseName : string) (qps : float32)
  (burst : int) : option RestConfig * option error :=
  if String.eqb kubeconfig "/missing"
  then (None, Some (New "stat /missing: no such file or directory"))
  else (Some (mkRestConfig kubeconfig kubecontext baseName qps burst), None).

(** A client is the configuration it holds; construction fails for the
    context [broken]. *)
Definition NewForConfig (c : option RestConfig)
  : option RestConfig * option error :=
  match c with
  | None => (None, Some (New "config cannot be nil"))
  | Some c =>
      if String.eqb (rc_kubecontext c) "broken"
      then (None, Some (New "host must be a URL or a host:port pair"))
      else (Some c, None)
  end.

Definition a_factory (kubeconfig kubecontext : string) : factory :=
  mkFactory [] None kubeconfig kubecontext "velero" "velero"
    (S754_zero false) 0%Z.

End fakes.

(** Concrete processes that the statements below are evaluated on. *)

Module processes.

Import client.

(** [VELERO_NAMESPACE=foo] and a config file whose namespace is [bar]. *)
Definition env_and_config : OS :=
  mkOS {[ "VELERO_NAMESPACE" := "foo" ]} (mkVeleroConfig "bar" [], None) [].

(** [VELERO_NAMESPACE=foo], no config file ([LoadConfig] fails). *)
Definition env_only : OS :=
  mkOS {[ "VELERO_NAMESPACE" := "foo" ]}
    (zeroVeleroConfig, Some (New "open config.json: no such file or directory"))
    [].

(** [VELERO_NAMESPACE=foo], no config file ([LoadConfig] gives an empty
    configuration). *)
Definition env_empty_config : OS :=
  mkOS {[ "VELERO_NAMESPACE" := "foo" ]} (zeroVeleroConfig, None) [].

(** Nothing set: no variable, no config file. *)
Definition bare : OS :=
  mkOS ∅
    (zeroVeleroConfig, Some (New "open config.json: no such file or directory"))
    [].

(** No variable; a config file that enables feature [a] and names the
    namespace [bar]. *)
Definition config_only : OS :=
  mkOS ∅ (mkVeleroConfig "bar" ["a"], None) [].

End processes.

(** ** pkg/install *)

Module install.

Import schema unstructured.

(** A request to the cluster through the dynamic client:
    [client.Resource(gvr).Create(obj, opts)] or
    [client.Resource(gvr).Delete(name, opts)]. *)
Inductive Request : Type :=
| req_Create (gvr : GroupVersionResource) (obj : Unstructured)
| req_Delete (gvr : GroupVersionResource) (name : string).

(** [dynamic.Interface] over a cluster state [Cluster]: a request changes
    the cluster and succeeds ([None]) or fails with an error. *)
Class Interface (Cluster : Type) : Type :=
  serve : Request -> Cluster -> Cluster * option error.

(** What [Install] does that can be observed: the log entries (the value of
    the field [resource] and the message) and the requests it sends. *)
Inductive Event : Type :=
| Info (resource : string) (msg : string)
| Sent (req : Request).

Definition requests (trace : list Event) : list Request :=
  omap (fun ev => match ev with Sent req => Some req | Info _ _ => None end)
    trace.

(** The coordinates that the loop body computes for [r]:
    [schema.ParseGroupResource(r.GetResourceVersion()).WithVersion("")]. *)
Definition gvrOf (r : Unstructured) : GroupVersionResource :=
  WithVersion (ParseGroupResource (GetResourceVersion r)) "".

(** [fmt.Sprintf("%s/%s", r.GetKind(), r.GetName())] *)
Definition kindName (r : Unstructured) : string :=
  GetKind r +:+ "/" +:+ GetName r.

Section Install.

Context `{client : Interface Cluster}.

(** [Install(client, helper, resources, logger)]: the cluster afterwards,
    the trace and the returned error.  [helper] is not used by the body;
    [logger] receives the [Info] events. *)
Fixpoint Install (resources : list Unstructured) (cluster : Cluster)
  : Cluster * list Event * option error :=
  match resources with
  | [] => (cluster, [], None)
  | r :: rest =>
      let entry := Info (kindName r) "Creating resource" in
      let gvr := gvrOf r in
      let '(cluster, err) := serve (req_Create gvr r) cluster in
      match err with
      | Some err =>
          (cluster, [entry; Sent (req_Create gvr r)],
           Some (Wrapf ("Error creating resource " +:+ kindName r) err))
      | None =>
          let '(cluster, trace, result) := Install rest cluster in
          (cluster, entry :: Sent (req_Create gvr r) :: trace, result)
      end
  end.

(** [created cluster rs cluster']: starting from [cluster], the creation of
    every resource of [rs], in order, succeeds and leaves [cluster']. *)
Inductive created : Cluster -> list Unstructured -> Cluster -> Prop :=
| created_nil cluster : created cluster [] cluster
| created_cons cluster r cluster1 rs cluster2 :
    serve (req_Create (gvrOf r) r) cluster = (cluster1, None) ->
    created cluster1 rs cluster2 ->
    created cluster (r :: rs) cluster2.

End Install.

(** The two events of one turn of the loop for [r]. *)
Definition attempt (r : Unstructured) : list Event :=
  [Info (kindName r) "Creating resource"; Sent (req_Create (gvrOf r) r)].

End install.

(** A stand-in for a cluster, to evaluate [Install] on: it keeps the objects
    created in it, and refuses to create an object when it has one of that
    kind and name. *)

Module fake_cluster.

Import schema unstructured install.

Definition Cluster : Type := list Unstructured.

Definition has (cluster : Cluster) (obj : Unstructured) : bool :=
  List.existsb
    (fun o => String.eqb (Kind o) (Kind obj) && String.eqb (Name o) (Name obj))
    cluster.

#[export] Instance client : Interface Cluster :=
  fun req cluster =>
    match req with
    | req_Create gvr obj =>
        if has cluster obj
        then (cluster, Some (New (kindName obj +:+ " already exists")))
        else (cluster ++ [obj], None)
    | req_Delete gvr name =>
        (List.filter (fun o => negb (String.eqb (Name o) name)) cluster, None)
    end.

Definition namespace_velero : Unstructured :=
  mkUnstructured "v1" "Namespace" "velero" "".

Definition crd_backups : Unstructured :=
  mkUnstructured "apiextensions.k8s.io/v1beta1" "CustomResourceDefinition"
    "backups.velero.io" "".

Definition deployment_velero : Unstructured :=
  mkUnstructured "apps/v1" "Deployment" "velero" "".

End fake_cluster.

(** * Properties *)

(** ** The feature flag set, as its test uses it *)

Section FeatureFlags.

Import features.

Example TestFeatureFlags :
  let newSet := NewFeatureFlagSet ["feature1"; "feature2"] in
  Enabled newSet "feature1" = true
  /\ Enabled newSet "feature3" = false
  /\ All newSet = ["feature1"; "feature2"]
  /\ Enabled (Enable newSet "feature3") "feature3" = true.
Proof. repeat split. Qed.

End FeatureFlags.

(** ** NewFactory *)

Section NewFactory.

Import pflag client.

(** The namespace that [NewFactory] stores, by cases on its three sources. *)
Lemma NewFactory_namespace baseName os :
  namespace (this (NewFactory baseName os).1) =
    if negb (String.eqb (configNamespace os) "") then configNamespace os
    else if negb (String.eqb (Getenv os "VELERO_NAMESPACE") "")
         then Getenv os "VELERO_NAMESPACE"
         else DefaultNamespace.
Proof.
  unfold NewFactory, configNamespace.
  destruct (LoadConfig os) as [config [err|]]; cbn.
  - destruct (String.eqb (Getenv os "VELERO_NAMESPACE") "") eqn:E; cbn;
      rewrite ?E; reflexivity.
  - destruct (String.eqb (VeleroConfig_Namespace config) "") eqn:C; cbn.
    + destruct (String.eqb (Getenv os "VELERO_NAMESPACE") "") eqn:E; cbn;
        rewrite ?E; reflexivity.
    + rewrite C. reflexivity.
Qed.

Lemma NewFactory_flags baseName os :
  flags (this (NewFactory baseName os).1) =
    registered (namespace (this (NewFactory baseName os).1)).
Proof.
  unfold NewFactory.
  destruct (LoadConfig os) as [config [err|]]; cbn.
  - destruct (String.eqb (Getenv os "VELERO_NAMESPACE") ""); reflexivity.
  - destruct (String.eqb (VeleroConfig_Namespace config) ""); cbn.
    + destruct (String.eqb (Getenv os "VELERO_NAMESPACE") ""); reflexivity.
    + destruct (String.eqb (VeleroConfig_Namespace config) ""); reflexivity.
Qed.

(** Whatever the environment and the config file, the set that
    [NewFactory] stores is the one built from no name at all, and
    [cmdFeatures] is still empty when it is read. *)
Lemma NewFactory_features baseName os :
  features (this (NewFactory baseName os).1) = Some (features.NewFeatureFlagSet [])
  /\ cmdFeatures (NewFactory baseName os).1 = [].
Proof.
  unfold NewFactory.
  destruct (LoadConfig os) as [config [err|]]; cbn.
  - destruct (String.eqb (Getenv os "VELERO_NAMESPACE") ""); split; reflexivity.
  - destruct (String.eqb (VeleroConfig_Namespace config) ""); cbn.
    + destruct (String.eqb (Getenv os "VELERO_NAMESPACE") ""); split; reflexivity.
    + destruct (String.eqb (VeleroConfig_Namespace config) ""); split; reflexivity.
Qed.

(** The caller's flag set after [BindFlags] on a new, empty set. *)
Lemma BindFlags_new f ns :
  flags f = registered ns -> BindFlags f NewFlagSet = bound ns.
Proof. intros E. unfold BindFlags. rewrite E. reflexivity. Qed.

(** Storing through a flag changes neither the feature set nor the
    registered flags. *)
Lemma Set_features v s m :
  features (this (Set_ v s m).1) = features (this m)
  /\ flags (this (Set_ v s m).1) = flags (this m)
  /\ (Set_ v s m).2 = None.
Proof. destruct v as [[]|]; repeat split. Qed.

Lemma Parse_features fs arguments : forall m,
  features (this (Parse Set_ fs arguments m).1) = features (this m).
Proof.
  induction arguments as [|a rest IH]; intros m; [reflexivity|].
  cbn [Parse]. destruct (lookupArg fs a) as [[[flag|] value] unknown];
    [|reflexivity].
  destruct (Set_features (pflag.Value flag) value m) as (Hf & _ & Herr).
  destruct (Set_ (pflag.Value flag) value m) as [m' err]; cbn in *; subst err.
  rewrite IH. exact Hf.
Qed.

Lemma Lookup_registered ns name :
  Lookup (registered ns) name =
    if String.eqb "kubeconfig" name
    then Some (mkFlag "kubeconfig" "" (stringValue ptr_kubeconfig) "")
    else if String.eqb "namespace" name
    then Some (mkFlag "namespace" "n" (stringValue ptr_namespace) ns)
    else if String.eqb "kubecontext" name
    then Some (mkFlag "kubecontext" "" (stringValue ptr_kubecontext) "")
    else if String.eqb "features" name
    then Some (mkFlag "features" "" StringArray_cmdFeatures "")
    else None.
Proof. reflexivity. Qed.

Lemma ShorthandLookup_registered ns c :
  ShorthandLookup (registered ns) c =
    if String.eqb "n" c
    then Some (mkFlag "namespace" "n" (stringValue ptr_namespace) ns)
    else None.
Proof. reflexivity. Qed.

(** One occurrence, looked up among the registered flags: [--namespace]
    and [-n] store into the namespace, every other known flag leaves it. *)
Lemma Parse_step ns a m m' err :
  match lookupArg (registered ns) a with
  | (None, _, unknown) => (m, Some unknown)
  | (Some flag, value, _) => Set_ (pflag.Value flag) value m
  end = (m', err) ->
  err = None ->
  namespace (this m') = default (namespace (this m)) (isNamespaceArg a).
Proof.
  destruct a as [name value|c value]; unfold lookupArg, isNamespaceArg.
  - rewrite Lookup_registered.
    destruct (String.eqb "kubeconfig" name) eqn:E1.
    { apply String.eqb_eq in E1; subst name.
      intros H _; cbn in H; simplify_eq; reflexivity. }
    destruct (String.eqb "namespace" name) eqn:E2.
    { intros H _; cbn in H; simplify_eq; reflexivity. }
    destruct (String.eqb "kubecontext" name) eqn:E3.
    { intros H _; cbn in H; simplify_eq; reflexivity. }
    destruct (String.eqb "features" name) eqn:E4.
    { intros H _; cbn in H; simplify_eq; reflexivity. }
    intros H ?; simplify_eq.
  - rewrite ShorthandLookup_registered.
    destruct (String.eqb "n" c) eqn:E.
    + intros H _; cbn in H; simplify_eq; reflexivity.
    + intros H ?; simplify_eq.
Qed.

(** The order of the flags in the set plays no part in a parse: every name
    and shorthand finds the same flag. *)
Lemma lookupArg_bound ns a :
  lookupArg (bound ns) a = lookupArg (registered ns) a.
Proof.
  destruct a as [name value|c value]; unfold lookupArg; [|reflexivity].
  rewrite Lookup_registered.
  change (Lookup (bound ns) name) with
    (if String.eqb "features" name
     then Some (mkFlag "features" "" StringArray_cmdFeatures "")
     else if String.eqb "kubeconfig" name
     then Some (mkFlag "kubeconfig" "" (stringValue ptr_kubeconfig) "")
     else if String.eqb "kubecontext" name
     then Some (mkFlag "kubecontext" "" (stringValue ptr_kubecontext) "")
     else if String.eqb "namespace" name
     then Some (mkFlag "namespace" "n" (stringValue ptr_namespace) ns)
     else None).
  destruct (String.eqb_spec "features" name) as [<-|_]; [reflexivity|].
  destruct (String.eqb_spec "kubeconfig" name) as [<-|_]; [reflexivity|].
  destruct (String.eqb_spec "kubecontext" name) as [<-|_]; [reflexivity|].
  destruct (String.eqb_spec "namespace" name) as [<-|_]; reflexivity.
Qed.

Lemma Parse_bound ns arguments : forall m,
  Parse Set_ (bound ns) arguments m = Parse Set_ (registered ns) arguments m.
Proof.
  induction arguments as [|a rest IH]; intros m; [reflexivity|].
  cbn [Parse]. rewrite lookupArg_bound.
  destruct (lookupArg (registered ns) a) as [[[flag|] value] unknown];
    [|reflexivity].
  destruct (Set_ (pflag.Value flag) value m) as [m1 [err|]]; [reflexivity|].
  apply IH.
Qed.

Lemma Parse_namespace ns arguments : forall m m',
  Parse Set_ (registered ns) arguments m = (m', None) ->
  namespace (this m') = default (namespace (this m)) (namespaceFlag arguments).
Proof.
  induction arguments as [|a rest IH]; intros m m'.
  - cbn. intros [= <-]. reflexivity.
  - cbn [Parse namespaceFlag]. intros H.
    pose proof (Parse_step ns a m) as Hstep.
    destruct (lookupArg (registered ns) a) as [[[flag|] value] unknown];
      [|discriminate].
    destruct (Set_ (pflag.Value flag) value m) as [m1 [err|]] eqn:ES; [discriminate|].
    specialize (Hstep m1 None eq_refl eq_refl).
    apply IH in H. rewrite H, Hstep.
    destruct (namespaceFlag rest), (isNamespaceArg a); reflexivity.
Qed.

(** C1, at the input where it fails.  The config file enables feature
    [a] and the command line is [--features b].  The set that [NewFactory]
    stores is empty, and it stays empty when the caller parses the command
    line afterwards, although the parse does store [b] in [cmdFeatures];
    the union that the claim describes would be [a; b]. *)
Theorem NewFactory_features_not_the_union :
  features (this (NewFactory "velero" processes.config_only).1) = Some []
  /\ Parse Set_
       (BindFlags (this (NewFactory "velero" processes.config_only).1) NewFlagSet)
       [Long "features" "b"]
       (NewFactory "velero" processes.config_only).1
     = (mkMemory (this (NewFactory "velero" processes.config_only).1) ["b"], None)
  /\ features.All
       (features.NewFeatureFlagSet
          (VeleroConfig_Features (LoadConfig processes.config_only).1 ++ ["b"]))
     = ["a"; "b"].
Proof. repeat split. Qed.

(** C2 as stated fails: with [VELERO_NAMESPACE=foo], a config file whose
    namespace is [bar] and no flag, the factory's namespace is [bar], where
    the claimed precedence gives [foo]. *)
Lemma namespace_config_beats_environment :
  Namespace (this (NewFactory "velero" processes.env_and_config).1) = "bar"
  /\ spec_precedence None
       (Getenv processes.env_and_config "VELERO_NAMESPACE")
       (configNamespace processes.env_and_config) = "foo"
  /\ Namespace (this (NewFactory "velero" processes.env_and_config).1)
     <> spec_precedence None
          (Getenv processes.env_and_config "VELERO_NAMESPACE")
          (configNamespace processes.env_and_config).
Proof. repeat split. vm_compute. discriminate. Qed.

(** C2, amended: after [NewFactory], [BindFlags] on a new flag set and a
    successful parse of any command line, the namespace is the value of
    the last [--namespace]/[-n] flag if there is one, else the namespace of
    the config file if it was loaded and gives one, else the value of
    [VELERO_NAMESPACE] if it is set and not empty, else ["velero"]. *)
Theorem namespace_precedence baseName os arguments m' :
  Parse Set_ (BindFlags (this (NewFactory baseName os).1) NewFlagSet)
    arguments (NewFactory baseName os).1 = (m', None) ->
  Namespace (this m') =
    match namespaceFlag arguments with
    | Some value => value
    | None =>
        if negb (String.eqb (configNamespace os) "") then configNamespace os
        else if negb (String.eqb (Getenv os "VELERO_NAMESPACE") "")
             then Getenv os "VELERO_NAMESPACE"
             else "velero"
    end.
Proof.
  intros H.
  rewrite (BindFlags_new _ _ (NewFactory_flags baseName os)), Parse_bound in H.
  apply Parse_namespace in H. unfold Namespace. rewrite H.
  destruct (namespaceFlag arguments); [reflexivity|].
  apply NewFactory_namespace.
Qed.

Lemma namespace_precedence_witness :
  Namespace
    (this (Parse Set_
             (BindFlags (this (NewFactory "velero" processes.env_and_config).1)
                NewFlagSet)
             [Long "kubecontext" "prod"; Short "n" "baz"]
             (NewFactory "velero" processes.env_and_config).1).1) = "baz"
  /\ Namespace (this (NewFactory "velero" processes.env_and_config).1) = "bar"
  /\ Namespace (this (NewFactory "velero" processes.env_only).1) = "foo"
  /\ Namespace (this (NewFactory "velero" processes.bare).1) = "velero".
Proof.
  split; [|split; [|split]].
  - apply (namespace_precedence "velero" processes.env_and_config
             [Long "kubecontext" "prod"; Short "n" "baz"]).
    vm_compute. reflexivity.
  - apply (namespace_precedence "velero" processes.env_and_config []).
    vm_compute. reflexivity.
  - apply (namespace_precedence "velero" processes.env_only []).
    vm_compute. reflexivity.
  - apply (namespace_precedence "velero" processes.bare []).
    vm_compute. reflexivity.
Defined.

(** C5: when [LoadConfig] fails, [NewFactory] (which has no error result
    and returns a factory on every path) adds one line to what the standard
    error stream holds, the warning with the text of the error, and leaves
    the rest of the process as it is; the namespace is the value of
    [VELERO_NAMESPACE], or ["velero"] when that is empty or not set. *)
Theorem NewFactory_config_error_is_a_warning baseName os config err :
  LoadConfig os = (config, Some err) ->
  Stderr (NewFactory baseName os).2 =
    Stderr os
    ++ ["WARNING: error retrieving namespace from config file: "
        +:+ Error err +:+ newline]
  /\ environ (NewFactory baseName os).2 = environ os
  /\ LoadConfig (NewFactory baseName os).2 = LoadConfig os
  /\ Namespace (this (NewFactory baseName os).1) =
       (if String.eqb (Getenv os "VELERO_NAMESPACE") "" then "velero"
        else Getenv os "VELERO_NAMESPACE").
Proof.
  intros H.
  assert ((NewFactory baseName os).2 =
            Fprintf_Stderr
              ("WARNING: error retrieving namespace from config file: "
               +:+ Error err +:+ newline) os) as E.
  { unfold NewFactory. rewrite H.
    destruct (String.eqb (Getenv os "VELERO_NAMESPACE") ""); reflexivity. }
  rewrite E. split; [reflexivity|]. split; [reflexivity|].
  split; [reflexivity|].
  unfold Namespace. rewrite NewFactory_namespace.
  unfold configNamespace. rewrite H. cbn.
  destruct (String.eqb (Getenv os "VELERO_NAMESPACE") ""); reflexivity.
Qed.

Lemma NewFactory_config_error_is_a_warning_witness :
  Stderr (NewFactory "velero" processes.env_only).2 =
    [] ++ ["WARNING: error retrieving namespace from config file: "
           +:+ "open config.json: no such file or directory" +:+ newline]
  /\ environ (NewFactory "velero" processes.env_only).2
     = {[ "VELERO_NAMESPACE" := "foo" ]}
  /\ LoadConfig (NewFactory "velero" processes.env_only).2
     = (zeroVeleroConfig,
        Some (New "open config.json: no such file or directory"))
  /\ Namespace (this (NewFactory "velero" processes.env_only).1) = "foo".
Proof.
  apply (NewFactory_config_error_is_a_warning "velero" processes.env_only
           zeroVeleroConfig
           (New "open config.json: no such file or directory")).
  reflexivity.
Defined.

(** Without a config namespace the factory takes the environment's. *)
Lemma noConfigFile_namespace os : noConfigFile os -> configNamespace os = "".
Proof.
  unfold configNamespace. intros [(config & err & H)|H]; rewrite H; reflexivity.
Qed.

(** C7: with [VELERO_NAMESPACE] set to a value that is not empty (["foo"]
    in the claim) and no persisted config file, [Namespace()] after
    [NewFactory] is that value. *)
Theorem Namespace_from_environment baseName os value :
  environ os !! "VELERO_NAMESPACE" = Some value ->
  value <> "" ->
  noConfigFile os ->
  Namespace (this (NewFactory baseName os).1) = value.
Proof.
  intros Henv Hne Hcfg. unfold Namespace.
  rewrite NewFactory_namespace, (noConfigFile_namespace os Hcfg).
  unfold Getenv. rewrite Henv. cbn.
  destruct (String.eqb_spec value ""); [contradiction|reflexivity].
Qed.

Lemma Namespace_from_environment_witness :
  Namespace (this (NewFactory "velero" processes.env_only).1) = "foo"
  /\ Namespace (this (NewFactory "velero" processes.env_empty_config).1) = "foo".
Proof.
  split.
  - apply (Namespace_from_environment "velero" processes.env_only "foo").
    + vm_compute. reflexivity.
    + discriminate.
    + left. eexists _, _. reflexivity.
  - apply (Namespace_from_environment "velero" processes.env_empty_config "foo").
    + vm_compute. reflexivity.
    + discriminate.
    + right. reflexivity.
Defined.

(** C8: with [VELERO_NAMESPACE] not set and no persisted config file,
    [Namespace()] is ["velero"] as long as no flag is parsed, and it is
    ["bar"] once the caller has parsed [-n bar] with the flag set that
    [BindFlags] filled. *)
Theorem Namespace_from_flag baseName os :
  environ os !! "VELERO_NAMESPACE" = None ->
  noConfigFile os ->
  Namespace (this (NewFactory baseName os).1) = "velero"
  /\ exists m',
       Parse Set_ (BindFlags (this (NewFactory baseName os).1) NewFlagSet)
         [Short "n" "bar"] (NewFactory baseName os).1 = (m', None)
       /\ Namespace (this m') = "bar".
Proof.
  intros Henv Hcfg. split.
  - unfold Namespace.
    rewrite NewFactory_namespace, (noConfigFile_namespace os Hcfg).
    unfold Getenv. rewrite Henv. reflexivity.
  - rewrite (BindFlags_new _ _ (NewFactory_flags baseName os)).
    eexists. split; reflexivity.
Qed.

Lemma Namespace_from_flag_witness :
  Namespace (this (NewFactory "velero" processes.bare).1) = "velero"
  /\ exists m',
       Parse Set_
         (BindFlags (this (NewFactory "velero" processes.bare).1) NewFlagSet)
         [Short "n" "bar"] (NewFactory "velero" processes.bare).1 = (m', None)
       /\ Namespace (this m') = "bar".
Proof.
  apply (Namespace_from_flag "velero" processes.bare).
  - vm_compute. reflexivity.
  - left. eexists _, _. reflexivity.
Defined.

End NewFactory.

(** ** Client constructors and setters *)

Section Constructors.

Import client.

Context {RestConfig VeleroClientset KubernetesClientset DynamicInterface : Type}.

Variable Config :
  string -> string -> string -> float32 -> int ->
  option RestConfig * option error.
Variable clientset_NewForConfig :
  option RestConfig -> option VeleroClientset * option error.
Variable kubernetes_NewForConfig :
  option RestConfig -> option KubernetesClientset * option error.
Variable dynamic_NewForConfig :
  option RestConfig -> option DynamicInterface * option error.

(** Closes a case whose hypotheses name results that the case excludes, or
    whose conclusion is the result at hand. *)
Local Ltac by_cases := intros; simplify_eq; congruence.

(** The body shared by the three constructors. *)
Lemma propagates_body {Handle : Type}
  (configured : option RestConfig * option error)
  (construct : option RestConfig -> option Handle * option error) :
  propagates configured construct
    (let '(clientConfig, err) := configured in
     match err with
     | Some err => (None, Some err)
     | None =>
         let '(made, err) := construct clientConfig in
         match err with
         | Some err => (None, Some (WithStack err))
         | None => (made, None)
         end
     end).
Proof.
  destruct configured as [clientConfig [err|]].
  - repeat apply conj; by_cases.
  - destruct (construct clientConfig) as [made [err|]] eqn:E;
      repeat apply conj; try by_cases.
    + intros cfg h e Hcfg Hc. simplify_eq. rewrite E in Hc. simplify_eq.
      repeat split.
    + intros h Hr. simplify_eq. exists clientConfig. split; [reflexivity|exact E].
Qed.

(** C6: each of [Client], [KubeClient] and [DynamicClient] returns an error
    of [ClientConfig] unchanged and without a client, returns an error of
    the library constructor wrapped by [WithStack] (same cause, same text)
    and without a client, and returns the constructed client with a nil
    error otherwise; a nil error comes back only when neither step
    failed. *)
Theorem constructors_propagate_errors (f : factory) :
  propagates (ClientConfig Config f) clientset_NewForConfig
    (Client Config clientset_NewForConfig f)
  /\ propagates (ClientConfig Config f) kubernetes_NewForConfig
       (KubeClient Config kubernetes_NewForConfig f)
  /\ propagates (ClientConfig Config f) dynamic_NewForConfig
       (DynamicClient Config dynamic_NewForConfig f).
Proof.
  split; [|split].
  - apply (propagates_body (ClientConfig Config f) clientset_NewForConfig).
  - apply (propagates_body (ClientConfig Config f) kubernetes_NewForConfig).
  - apply (propagates_body (ClientConfig Config f) dynamic_NewForConfig).
Qed.

Local Abbreviation run :=
  (run Config clientset_NewForConfig kubernetes_NewForConfig
     dynamic_NewForConfig).

(** Calls made one after the other: the results of the first calls do not
    depend on the calls that follow. *)
Lemma run_app before after f :
  run (before ++ after) f =
    ((run after (run before f).1).1,
     (run before f).2 ++ (run after (run before f).1).2).
Proof.
  revert f. induction before as [|c before IH]; intros f; cbn [app client.run].
  - cbn. by destruct (run after f).
  - destruct (call Config clientset_NewForConfig kubernetes_NewForConfig
                dynamic_NewForConfig c f) as [f1 r1].
    rewrite IH. destruct (run before f1) as [f2 r2]; cbn.
    destruct (run after f2) as [f3 r3]; cbn. by rewrite app_assoc.
Qed.

(** C9: each setter changes its own field and no other; the connection
    configuration of a later constructor call is built from the new value;
    and what the constructor calls made before the setter returned is what
    they return without it. *)
Theorem setters_change_one_field f name qps burst before after :
  (baseName (SetBasename f name) = name
   /\ flags (SetBasename f name) = flags f
   /\ features (SetBasename f name) = features f
   /\ kubeconfig (SetBasename f name) = kubeconfig f
   /\ kubecontext (SetBasename f name) = kubecontext f
   /\ namespace (SetBasename f name) = namespace f
   /\ clientQPS (SetBasename f name) = clientQPS f
   /\ clientBurst (SetBasename f name) = clientBurst f)
  /\ (clientQPS (SetClientQPS f qps) = qps
      /\ flags (SetClientQPS f qps) = flags f
      /\ features (SetClientQPS f qps) = features f
      /\ kubeconfig (SetClientQPS f qps) = kubeconfig f
      /\ kubecontext (SetClientQPS f qps) = kubecontext f
      /\ namespace (SetClientQPS f qps) = namespace f
      /\ baseName (SetClientQPS f qps) = baseName f
      /\ clientBurst (SetClientQPS f qps) = clientBurst f)
  /\ (clientBurst (SetClientBurst f burst) = burst
      /\ flags (SetClientBurst f burst) = flags f
      /\ features (SetClientBurst f burst) = features f
      /\ kubeconfig (SetClientBurst f burst) = kubeconfig f
      /\ kubecontext (SetClientBurst f burst) = kubecontext f
      /\ namespace (SetClientBurst f burst) = namespace f
      /\ baseName (SetClientBurst f burst) = baseName f
      /\ clientQPS (SetClientBurst f burst) = clientQPS f)
  /\ (ClientConfig Config (SetBasename f name) =
        Config (kubeconfig f) (kubecontext f) name (clientQPS f) (clientBurst f)
      /\ ClientConfig Config (SetClientQPS f qps) =
          Config (kubeconfig f) (kubecontext f) (baseName f) qps (clientBurst f)
      /\ ClientConfig Config (SetClientBurst f burst) =
          Config (kubeconfig f) (kubecontext f) (baseName f) (clientQPS f) burst)
  /\ ((run (before ++ call_SetBasename name :: after) f).2 =
        (run before f).2
        ++ (run after (SetBasename (run before f).1 name)).2
      /\ (run (before ++ call_SetClientQPS qps :: after) f).2 =
          (run before f).2
          ++ (run after (SetClientQPS (run before f).1 qps)).2
      /\ (run (before ++ call_SetClientBurst burst :: after) f).2 =
          (run before f).2
          ++ (run after (SetClientBurst (run before f).1 burst)).2).
Proof.
  split; [repeat split|]. split; [repeat split|]. split; [repeat split|].
  split; [repeat split|].
  split; [|split]; rewrite run_app; cbn [snd client.run call];
    match goal with |- context [client.run _ _ _ _ after ?g] =>
      destruct (client.run Config clientset_NewForConfig
                  kubernetes_NewForConfig dynamic_NewForConfig after g)
    end; reflexivity.
Qed.

End Constructors.

Lemma constructors_propagate_errors_witness :
  client.Client fakes.Config fakes.NewForConfig (fakes.a_factory "/missing" "")
    = (None, Some (New "stat /missing: no such file or directory"))
  /\ (client.KubeClient fakes.Config fakes.NewForConfig
        (fakes.a_factory "/kube/config" "broken")
      = (None, Some (WithStack (New "host must be a URL or a host:port pair")))
      /\ Cause (WithStack (New "host must be a URL or a host:port pair"))
         = Cause (New "host must be a URL or a host:port pair")
      /\ Error (WithStack (New "host must be a URL or a host:port pair"))
         = Error (New "host must be a URL or a host:port pair"))
  /\ client.DynamicClient fakes.Config fakes.NewForConfig
       (fakes.a_factory "/kube/config" "prod")
     = (Some (fakes.mkRestConfig "/kube/config" "prod" "velero"
                (S754_zero false) 0%Z), None).
Proof.
  split; [|split].
  - destruct (constructors_propagate_errors fakes.Config fakes.NewForConfig
                fakes.NewForConfig fakes.NewForConfig
                (fakes.a_factory "/missing" "")) as [(H & _) _].
    apply (H None). reflexivity.
  - destruct (constructors_propagate_errors fakes.Config fakes.NewForConfig
                fakes.NewForConfig fakes.NewForConfig
                (fakes.a_factory "/kube/config" "broken"))
      as (_ & (_ & H & _) & _).
    eapply (H _ None); reflexivity.
  - destruct (constructors_propagate_errors fakes.Config fakes.NewForConfig
                fakes.NewForConfig fakes.NewForConfig
                (fakes.a_factory "/kube/config" "prod"))
      as (_ & _ & (_ & _ & H & _)).
    eapply H; reflexivity.
Defined.

(** ** Install *)

Section Install.

Import schema unstructured install.

Context `{client : Interface Cluster}.

Lemma requests_attempts (rs : list Unstructured) :
  requests (concat (map attempt rs)) =
    map (fun r => req_Create (gvrOf r) r) rs.
Proof.
  induction rs as [|r rs IH]; [reflexivity|].
  cbn. unfold requests in IH. by rewrite IH.
Qed.

(** As long as creations succeed, [Install] goes on with the rest of the
    list from the cluster that they left. *)
Lemma Install_created pre rest cluster cluster1 :
  created cluster pre cluster1 ->
  Install (pre ++ rest) cluster =
    ((Install rest cluster1).1.1,
     concat (map attempt pre) ++ (Install rest cluster1).1.2,
     (Install rest cluster1).2).
Proof.
  induction 1 as [cluster|cluster r cluster1 rs cluster2 Hr _ IH].
  - cbn. by destruct (Install rest cluster) as [[? ?] ?].
  - cbn [app Install]. rewrite Hr, IH.
    by destruct (Install rest cluster2) as [[? ?] ?].
Qed.

(** The coordinates of a request depend on the resource version of the
    object only. *)
Lemma gvrOf_resourceVersion r1 r2 :
  GetResourceVersion r1 = GetResourceVersion r2 -> gvrOf r1 = gvrOf r2.
Proof. unfold gvrOf. by intros ->. Qed.

(** C4: when the creations of the resources [pre] succeed and the creation
    of the next resource [r] fails with [e], [Install] returns [e] wrapped
    with the message ["Error creating resource kind/name"]; the requests it
    has sent are the creations of [pre] and of [r], in order, and nothing
    else (no creation of a later resource, no deletion); and the cluster is
    left as the failed creation left it. *)
Theorem Install_stops_at_first_failure pre r post cluster cluster1 cluster2 e :
  created cluster pre cluster1 ->
  serve (req_Create (gvrOf r) r) cluster1 = (cluster2, Some e) ->
  Install (pre ++ r :: post) cluster =
    (cluster2, concat (map attempt (pre ++ [r])),
     Some (Wrapf ("Error creating resource " +:+ GetKind r +:+ "/" +:+ GetName r) e))
  /\ Error (Wrapf ("Error creating resource " +:+ GetKind r +:+ "/" +:+ GetName r) e)
     = ("Error creating resource " +:+ GetKind r +:+ "/" +:+ GetName r)
         +:+ ": " +:+ Error e
  /\ requests (concat (map attempt (pre ++ [r]))) =
       map (fun r => req_Create (gvrOf r) r) pre ++ [req_Create (gvrOf r) r].
Proof.
  intros Hpre Hr. split; [|split].
  - rewrite (Install_created pre (r :: post) cluster cluster1 Hpre).
    cbn [Install]. rewrite Hr. cbn.
    by rewrite map_app, concat_app.
  - reflexivity.
  - by rewrite requests_attempts, map_app.
Qed.

(** C10: for the empty list, [Install] sends no request, logs nothing,
    leaves the cluster as it is and returns nil. *)
Theorem Install_empty cluster :
  Install [] cluster = (cluster, [], None)
  /\ requests (Install [] cluster).1.2 = [].
Proof. split; reflexivity. Qed.

End Install.

Lemma Install_stops_at_first_failure_witness :
  install.Install (client := fake_cluster.client)
    ([fake_cluster.namespace_velero]
     ++ fake_cluster.namespace_velero :: [fake_cluster.crd_backups]) [] =
    ([fake_cluster.namespace_velero],
     concat (map install.attempt
               ([fake_cluster.namespace_velero] ++ [fake_cluster.namespace_velero])),
     Some (Wrapf ("Error creating resource " +:+ "Namespace" +:+ "/" +:+ "velero")
             (New "Namespace/velero already exists")))
  /\ Error (Wrapf ("Error creating resource " +:+ "Namespace" +:+ "/" +:+ "velero")
              (New "Namespace/velero already exists"))
     = "Error creating resource Namespace/velero: Namespace/velero already exists"
  /\ install.requests
       (concat (map install.attempt
                  ([fake_cluster.namespace_velero]
                   ++ [fake_cluster.namespace_velero]))) =
       [install.req_Create (schema.mkGVR "" "" "") fake_cluster.namespace_velero;
        install.req_Create (schema.mkGVR "" "" "") fake_cluster.namespace_velero].
Proof.
  apply (Install_stops_at_first_failure (client := fake_cluster.client)
           [fake_cluster.namespace_velero] fake_cluster.namespace_velero
           [fake_cluster.crd_backups] [] [fake_cluster.namespace_velero]
           [fake_cluster.namespace_velero]
           (New "Namespace/velero already exists")).
  - eapply (install.created_cons (client := fake_cluster.client)); [reflexivity|apply install.created_nil].
  - reflexivity.
Defined.

(** C3, at inputs where it fails.  The coordinates of the [Create] request
    are parsed from the object's resource version, not from its kind: three
    objects of three kinds that have no resource version yet all get the
    empty coordinates, and two objects of the same kind with different
    resource versions get different coordinates. *)
Theorem Install_coordinates_not_from_kind :
  install.requests
    (install.Install (client := fake_cluster.client)
       [fake_cluster.namespace_velero; fake_cluster.crd_backups;
        fake_cluster.deployment_velero] []).1.2 =
    [install.req_Create (schema.mkGVR "" "" "") fake_cluster.namespace_velero;
     install.req_Create (schema.mkGVR "" "" "") fake_cluster.crd_backups;
     install.req_Create (schema.mkGVR "" "" "") fake_cluster.deployment_velero]
  /\ install.gvrOf
       (unstructured.mkUnstructured "apps/v1" "Deployment" "velero" "4711")
     = schema.mkGVR "" "" "4711"
  /\ install.gvrOf
       (unstructured.mkUnstructured "apps/v1" "Deployment" "velero"
          "deployments.apps")
     = schema.mkGVR "apps" "" "deployments".
Proof. repeat split. Qed.

(** ** More on Install *)

Section InstallResults.

Import schema unstructured install.

Context `{client : Interface Cluster}.

(** When every creation succeeds, [Install] returns nil, has logged and
    sent one creation per resource, in the order of the list, and leaves
    the cluster that the last creation left. *)
Theorem Install_all_created rs cluster cluster' :
  created cluster rs cluster' ->
  Install rs cluster = (cluster', concat (map attempt rs), None).
Proof.
  intros H. pose proof (Install_created rs [] cluster cluster' H) as E.
  rewrite app_nil_r in E. rewrite E. cbn. by rewrite app_nil_r.
Qed.

(** [Install] returns nil only when every creation has succeeded. *)
Theorem Install_nil_only_if_all_created rs : forall cluster cluster' trace,
  Install rs cluster = (cluster', trace, None) ->
  created cluster rs cluster' /\ trace = concat (map attempt rs).
Proof.
  induction rs as [|r rs IH]; intros cluster cluster' trace; cbn [Install].
  - intros H. simplify_eq. split; [constructor|reflexivity].
  - destruct (serve (req_Create (gvrOf r) r) cluster) as [cluster1 [e|]] eqn:Hr;
      [discriminate|].
    destruct (Install rs cluster1) as [[cluster2 trace2] result] eqn:Hrs.
    intros H. simplify_eq.
    destruct (IH _ _ _ Hrs) as [Hc ->].
    split; [by econstructor|reflexivity].
Qed.

(** An error of [Install] is the error of one creation, the first that
    failed, under the message that names its resource; the creations before
    it succeeded, and the cluster is as that failed creation left it. *)
Theorem Install_error_is_first_failure rs : forall cluster cluster' trace err,
  Install rs cluster = (cluster', trace, Some err) ->
  exists pre r post cluster1 e,
    rs = pre ++ r :: post
    /\ created cluster pre cluster1
    /\ serve (req_Create (gvrOf r) r) cluster1 = (cluster', Some e)
    /\ err = Wrapf ("Error creating resource " +:+ GetKind r +:+ "/" +:+ GetName r) e
    /\ Cause err = Cause e
    /\ trace = concat (map attempt (pre ++ [r])).
Proof.
  induction rs as [|r rs IH]; intros cluster cluster' trace err; cbn [Install];
    [discriminate|].
  destruct (serve (req_Create (gvrOf r) r) cluster) as [cluster1 [e|]] eqn:Hr.
  - intros H. simplify_eq.
    exists [], r, rs, cluster, e. repeat split; [constructor|exact Hr].
  - destruct (Install rs cluster1) as [[cluster2 trace2] result] eqn:Hrs.
    intros H. simplify_eq.
    destruct (IH _ _ _ _ Hrs) as (pre & r' & post & c1 & e & -> & Hc & Hf & -> & Hcause & ->).
    exists (r :: pre), r', post, c1, e.
    repeat split; [by econstructor|exact Hf].
Qed.

(** Whatever the cluster answers, what [Install] logs and sends is what
    the loop does for the first [n] resources of the list, for some [n]:
    the requests are creations only, in the order of the list and at most
    one per resource, and [n] is the whole list when nil is returned. *)
Theorem Install_trace_is_a_prefix rs : forall cluster,
  exists n,
    n <= length rs
    /\ (Install rs cluster).1.2 = concat (map attempt (take n rs))
    /\ requests (Install rs cluster).1.2 =
         map (fun r => req_Create (gvrOf r) r) (take n rs)
    /\ ((Install rs cluster).2 = None -> n = length rs).
Proof.
  induction rs as [|r rs IH]; intros cluster; cbn [Install].
  - exists 0. cbn. split; [lia|]. by repeat split.
  - destruct (serve (req_Create (gvrOf r) r) cluster) as [cluster1 [e|]] eqn:Hr.
    + exists 1. cbn. split; [lia|]. by repeat split.
    + destruct (IH cluster1) as (n & Hn & Ht & Hq & Hnil).
      destruct (Install rs cluster1) as [[cluster2 trace2] result]; cbn in *.
      exists (S n). cbn. subst trace2.
      split; [lia|]. split; [reflexivity|].
      split; [|intros Hres; by rewrite (Hnil Hres)].
      unfold requests in *. cbn. by rewrite Hq.
Qed.

End InstallResults.

Lemma Install_all_created_witness :
  install.Install (client := fake_cluster.client)
    [fake_cluster.namespace_velero; fake_cluster.crd_backups] [] =
    ([fake_cluster.namespace_velero; fake_cluster.crd_backups],
     concat (map install.attempt
               [fake_cluster.namespace_velero; fake_cluster.crd_backups]),
     None).
Proof.
  apply (Install_all_created (client := fake_cluster.client)).
  eapply (install.created_cons (client := fake_cluster.client)); [reflexivity|].
  eapply (install.created_cons (client := fake_cluster.client)); [reflexivity|].
  apply install.created_nil.
Defined.

Lemma Install_nil_only_if_all_created_witness :
  install.created (client := fake_cluster.client) []
    [fake_cluster.namespace_velero; fake_cluster.crd_backups]
    [fake_cluster.namespace_velero; fake_cluster.crd_backups]
  /\ concat (map install.attempt
               [fake_cluster.namespace_velero; fake_cluster.crd_backups])
     = concat (map install.attempt
                 [fake_cluster.namespace_velero; fake_cluster.crd_backups]).
Proof.
  apply (Install_nil_only_if_all_created (client := fake_cluster.client)
           [fake_cluster.namespace_velero; fake_cluster.crd_backups] []).
  reflexivity.
Defined.

Lemma Install_error_is_first_failure_witness :
  exists pre r post cluster1 e,
    [fake_cluster.namespace_velero; fake_cluster.crd_backups;
     fake_cluster.crd_backups; fake_cluster.deployment_velero]
    = pre ++ r :: post
    /\ install.created (client := fake_cluster.client) [] pre cluster1
    /\ @install.serve _ fake_cluster.client
         (install.req_Create (install.gvrOf r) r) cluster1
       = ([fake_cluster.namespace_velero; fake_cluster.crd_backups], Some e)
    /\ Wrapf "Error creating resource CustomResourceDefinition/backups.velero.io"
         (New "CustomResourceDefinition/backups.velero.io already exists")
       = Wrapf ("Error creating resource " +:+ unstructured.GetKind r +:+ "/"
                +:+ unstructured.GetName r) e
    /\ Cause
         (Wrapf "Error creating resource CustomResourceDefinition/backups.velero.io"
            (New "CustomResourceDefinition/backups.velero.io already exists"))
       = Cause e
    /\ concat (map install.attempt
                 [fake_cluster.namespace_velero; fake_cluster.crd_backups;
                  fake_cluster.crd_backups])
       = concat (map install.attempt (pre ++ [r])).
Proof.
  apply (Install_error_is_first_failure (client := fake_cluster.client)
           [fake_cluster.namespace_velero; fake_cluster.crd_backups;
            fake_cluster.crd_backups; fake_cluster.deployment_velero] []).
  reflexivity.
Defined.

(** ** The coordinates of a creation *)

Section Coordinates.

Import schema unstructured install.

Lemma cut_splits sep s :
  match cut sep s with
  | Some (before, after) =>
      s = before +:+ String sep after
      /\ ~ In sep (list_ascii_of_string before)
  | None => ~ In sep (list_ascii_of_string s)
  end.
Proof.
  induction s as [|c s IH]; cbn; [tauto|].
  destruct (Ascii.eqb_spec c sep) as [->|Hne].
  - split; [reflexivity|]. cbn. tauto.
  - destruct (cut sep s) as [[before after]|].
    + destruct IH as [-> Hnot]. split; [reflexivity|].
      cbn. intros [E|Hin]; [by symmetry in E|tauto].
    + cbn. intros [E|Hin]; [by symmetry in E|tauto].
Qed.

(** The coordinates that [Install] sends with the creation of [r] have an
    empty version, and their resource and group are the two sides of the
    first dot of [r]'s resource version: without a dot, the resource is the
    whole resource version and the group is empty. *)
Theorem gvrOf_splits_resource_version r :
  Version (gvrOf r) = ""
  /\ ~ In "."%char (list_ascii_of_string (Resource (gvrOf r)))
  /\ ((Group (gvrOf r) = "" /\ GetResourceVersion r = Resource (gvrOf r))
      \/ GetResourceVersion r = Resource (gvrOf r) +:+ "." +:+ Group (gvrOf r)).
Proof.
  unfold gvrOf, ParseGroupResource.
  pose proof (cut_splits "."%char (GetResourceVersion r)) as H.
  destruct (cut "."%char (GetResourceVersion r)) as [[resource group]|]; cbn.
  - destruct H as [H Hnot]. split; [reflexivity|]. split; [exact Hnot|].
    right. exact H.
  - split; [reflexivity|]. split; [exact H|]. left. by split.
Qed.

End Coordinates.

(** ** More on NewFactory and the flags *)

Section FactoryState.

Import pflag client.

(** The memory that [NewFactory] leaves, in closed form. *)
Lemma NewFactory_memory baseName os :
  (NewFactory baseName os).1 =
    mkMemory
      (mkFactory (registered (resolvedNamespace os))
         (Some (features.NewFeatureFlagSet [])) "" "" baseName
         (resolvedNamespace os) (S754_zero false) 0%Z)
      [].
Proof.
  unfold NewFactory, resolvedNamespace, configNamespace.
  destruct (LoadConfig os) as [config [err|]]; cbn.
  - destruct (String.eqb (Getenv os "VELERO_NAMESPACE") ""); reflexivity.
  - destruct (String.eqb (VeleroConfig_Namespace config) "") eqn:C; cbn.
    + destruct (String.eqb (Getenv os "VELERO_NAMESPACE") ""); reflexivity.
    + rewrite C. reflexivity.
Qed.

Lemma resolvedNamespace_not_empty os : resolvedNamespace os <> "".
Proof.
  unfold resolvedNamespace.
  destruct (String.eqb_spec (configNamespace os) ""); cbn; [|assumption].
  destruct (String.eqb_spec (Getenv os "VELERO_NAMESPACE") ""); cbn;
    [discriminate|assumption].
Qed.

(** The namespace of a new factory is never empty. *)
Theorem NewFactory_namespace_not_empty baseName os :
  Namespace (this (NewFactory baseName os).1) <> "".
Proof.
  rewrite NewFactory_memory. cbn. apply resolvedNamespace_not_empty.
Qed.

(** [NewFactory] leaves the environment alone and adds to the standard
    error stream the warning line when [LoadConfig] failed, and nothing
    when it did not, whatever the configuration holds. *)
Theorem NewFactory_prints_only_on_error baseName os :
  environ (NewFactory baseName os).2 = environ os
  /\ Stderr (NewFactory baseName os).2 =
       Stderr os ++ match (LoadConfig os).2 with
                    | Some err => [warning err]
                    | None => []
                    end.
Proof.
  unfold NewFactory.
  destruct (LoadConfig os) as [config [err|]]; cbn.
  - destruct (String.eqb (Getenv os "VELERO_NAMESPACE") ""); by split.
  - rewrite app_nil_r.
    destruct (String.eqb (VeleroConfig_Namespace config) ""); cbn.
    + destruct (String.eqb (Getenv os "VELERO_NAMESPACE") ""); by split.
    + destruct (String.eqb (VeleroConfig_Namespace config) ""); by split.
Qed.

(** The factory that [NewFactory] builds depends on the process through
    the value of [VELERO_NAMESPACE] and the namespace of the loaded config
    file only: no other variable and nothing else of the file is read into
    it, a variable that is not set counts as one set to the empty string, and
    a file that failed to load as one without a namespace. *)
Theorem NewFactory_reads_two_values baseName os1 os2 :
  Getenv os1 "VELERO_NAMESPACE" = Getenv os2 "VELERO_NAMESPACE" ->
  configNamespace os1 = configNamespace os2 ->
  (NewFactory baseName os1).1 = (NewFactory baseName os2).1.
Proof.
  intros Henv Hcfg. rewrite !NewFactory_memory.
  unfold resolvedNamespace. by rewrite Henv, Hcfg.
Qed.

(** The flags that [BindFlags] puts into a new flag set, in the order in
    which it adds them (by name): [features], [kubeconfig], [kubecontext]
    and [namespace] with the shorthand [n], the default of [namespace] being
    the namespace of the factory and the other defaults empty. *)
Theorem BindFlags_registers baseName os :
  BindFlags (this (NewFactory baseName os).1) NewFlagSet =
    [ mkFlag "features" "" StringArray_cmdFeatures "";
      mkFlag "kubeconfig" "" (stringValue ptr_kubeconfig) "";
      mkFlag "kubecontext" "" (stringValue ptr_kubecontext) "";
      mkFlag "namespace" "n" (stringValue ptr_namespace)
        (Namespace (this (NewFactory baseName os).1)) ].
Proof.
  rewrite (BindFlags_new _ _ (NewFactory_flags baseName os)). reflexivity.
Qed.

(** A second [BindFlags] on the same flag set adds nothing. *)
Theorem BindFlags_twice baseName os :
  BindFlags (this (NewFactory baseName os).1)
    (BindFlags (this (NewFactory baseName os).1) NewFlagSet)
  = BindFlags (this (NewFactory baseName os).1) NewFlagSet.
Proof.
  rewrite (BindFlags_new _ _ (NewFactory_flags baseName os)).
  unfold BindFlags. rewrite NewFactory_flags. reflexivity.
Qed.

(** Storing a value through a flag leaves the base name, the QPS and the
    burst as they are, and so does a parse. *)
Lemma Set_frame v s m :
  baseName (this (Set_ v s m).1) = baseName (this m)
  /\ clientQPS (this (Set_ v s m).1) = clientQPS (this m)
  /\ clientBurst (this (Set_ v s m).1) = clientBurst (this m).
Proof. destruct v as [[]|]; repeat split. Qed.

Lemma Parse_keeps fs arguments : forall m,
  baseName (this (Parse Set_ fs arguments m).1) = baseName (this m)
  /\ clientQPS (this (Parse Set_ fs arguments m).1) = clientQPS (this m)
  /\ clientBurst (this (Parse Set_ fs arguments m).1) = clientBurst (this m).
Proof.
  induction arguments as [|a rest IH]; intros m; [by repeat split|].
  cbn [Parse]. destruct (lookupArg fs a) as [[[flag|] value] unknown];
    [|by repeat split].
  pose proof (Set_frame (pflag.Value flag) value m) as (H1 & H2 & H3).
  pose proof (Set_features (pflag.Value flag) value m) as (_ & _ & Herr).
  destruct (Set_ (pflag.Value flag) value m) as [m1 err]; cbn in *; subst err.
  destruct (IH m1) as (-> & -> & ->). by repeat split.
Qed.

(** No feature is ever enabled in the set of a factory: not by the config
    file, and not by a command line parsed afterwards. *)
Theorem features_never_enabled baseName os fs arguments :
  exists set,
    features (this (Parse Set_ fs arguments (NewFactory baseName os).1).1)
      = Some set
    /\ features.All set = []
    /\ forall name, features.Enabled set name = false.
Proof.
  exists (features.NewFeatureFlagSet []).
  rewrite Parse_features.
  split; [apply NewFactory_features|]. by split.
Qed.


(** One occurrence, looked up among the registered flags: [--kubeconfig]
    and [--kubecontext] store into their fields, every other known flag
    leaves these two. *)
Lemma Parse_step_paths ns a m m' :
  match lookupArg (registered ns) a with
  | (None, _, unknown) => (m, Some unknown)
  | (Some flag, value, _) => Set_ (pflag.Value flag) value m
  end = (m', None) ->
  kubeconfig (this m') =
    default (kubeconfig (this m)) (isLongArg "kubeconfig" a)
  /\ kubecontext (this m') =
       default (kubecontext (this m)) (isLongArg "kubecontext" a).
Proof.
  destruct a as [name value|c value]; unfold lookupArg, isLongArg.
  - rewrite Lookup_registered.
    destruct (String.eqb_spec "kubeconfig" name) as [<-|_].
    { intros H. cbn in H. simplify_eq. by split. }
    destruct (String.eqb_spec "namespace" name) as [<-|_].
    { intros H. cbn in H. simplify_eq. by split. }
    destruct (String.eqb_spec "kubecontext" name) as [<-|_].
    { intros H. cbn in H. simplify_eq. by split. }
    destruct (String.eqb_spec "features" name) as [<-|_].
    { intros H. cbn in H. simplify_eq. by split. }
    discriminate.
  - rewrite ShorthandLookup_registered.
    destruct (String.eqb "n" c); [|discriminate].
    intros H. cbn in H. simplify_eq. by split.
Qed.

Lemma Parse_paths ns arguments : forall m m',
  Parse Set_ (registered ns) arguments m = (m', None) ->
  kubeconfig (this m') =
    default (kubeconfig (this m)) (longFlag "kubeconfig" arguments)
  /\ kubecontext (this m') =
       default (kubecontext (this m)) (longFlag "kubecontext" arguments).
Proof.
  induction arguments as [|a rest IH]; intros m m'.
  - cbn. intros H. simplify_eq. by split.
  - cbn [Parse longFlag]. intros H.
    pose proof (Parse_step_paths ns a m) as Hstep.
    destruct (lookupArg (registered ns) a) as [[[flag|] value] unknown];
      [|discriminate].
    destruct (Set_ (pflag.Value flag) value m) as [m1 [err|]] eqn:ES;
      [discriminate|].
    destruct (Hstep m1 eq_refl) as [Hk Hc].
    destruct (IH _ _ H) as [-> ->]. rewrite Hk, Hc.
    split.
    + destruct (longFlag "kubeconfig" rest), (isLongArg "kubeconfig" a);
        reflexivity.
    + destruct (longFlag "kubecontext" rest), (isLongArg "kubecontext" a);
        reflexivity.
Qed.

(** The default is applied before the flags only: after a successful
    parse the namespace is empty exactly when the last [--namespace] or [-n]
    flag gave the empty string. *)
Theorem Namespace_empty_only_by_flag baseName os arguments m' :
  Parse Set_ (BindFlags (this (NewFactory baseName os).1) NewFlagSet)
    arguments (NewFactory baseName os).1 = (m', None) ->
  Namespace (this m') = "" <-> namespaceFlag arguments = Some "".
Proof.
  intros H.
  rewrite (BindFlags_new _ _ (NewFactory_flags baseName os)), Parse_bound in H.
  apply Parse_namespace in H. unfold Namespace. rewrite H.
  rewrite NewFactory_memory. cbn.
  destruct (namespaceFlag arguments) as [value|]; cbn.
  - split; [by intros ->|by intros [= ->]].
  - split; [|discriminate].
    intros E. by destruct (resolvedNamespace_not_empty os).
Qed.

End FactoryState.

Lemma Namespace_empty_only_by_flag_witness :
  client.Namespace
    (client.this
       (pflag.Parse client.Set_
          (client.BindFlags
             (client.this (client.NewFactory "velero" processes.env_only).1)
             pflag.NewFlagSet)
          [pflag.Short "n" "bar"; pflag.Long "namespace" ""]
          (client.NewFactory "velero" processes.env_only).1).1) = ""
  <-> client.namespaceFlag [pflag.Short "n" "bar"; pflag.Long "namespace" ""]
      = Some "".
Proof.
  apply (Namespace_empty_only_by_flag "velero" processes.env_only
           [pflag.Short "n" "bar"; pflag.Long "namespace" ""]).
  vm_compute. reflexivity.
Defined.

Lemma NewFactory_reads_two_values_witness :
  (client.NewFactory "velero" processes.env_only).1
  = (client.NewFactory "velero" processes.env_empty_config).1.
Proof.
  apply (NewFactory_reads_two_values "velero" processes.env_only
           processes.env_empty_config); reflexivity.
Defined.


(** ** More on the constructors *)

Section ConstructorInputs.

Import pflag client.

Context {RestConfig VeleroClientset KubernetesClientset DynamicInterface : Type}.

Variable Config :
  string -> string -> string -> float32 -> int ->
  option RestConfig * option error.
Variable clientset_NewForConfig :
  option RestConfig -> option VeleroClientset * option error.
Variable kubernetes_NewForConfig :
  option RestConfig -> option KubernetesClientset * option error.
Variable dynamic_NewForConfig :
  option RestConfig -> option DynamicInterface * option error.

(** After [NewFactory], [BindFlags] on a new flag set and a successful
    parse, the connection configuration is built from the value of the last
    [--kubeconfig] flag and of the last [--kubecontext] flag (the empty
    string for a flag that was not given), the base name that [NewFactory]
    was given, and zero for the QPS and the burst. *)
Theorem ClientConfig_after_parse baseName os arguments m' :
  Parse Set_ (BindFlags (this (NewFactory baseName os).1) NewFlagSet)
    arguments (NewFactory baseName os).1 = (m', None) ->
  ClientConfig Config (this m') =
    Config (default "" (longFlag "kubeconfig" arguments))
      (default "" (longFlag "kubecontext" arguments))
      baseName (S754_zero false) 0%Z.
Proof.
  intros H.
  destruct (Parse_keeps
              (BindFlags (this (NewFactory baseName os).1) NewFlagSet)
              arguments (NewFactory baseName os).1) as (Hb & Hq & Hbu).
  rewrite H in Hb, Hq, Hbu. cbn in Hb, Hq, Hbu.
  rewrite (BindFlags_new _ _ (NewFactory_flags baseName os)), Parse_bound in H.
  apply Parse_paths in H. destruct H as [Hk Hc].
  unfold ClientConfig. rewrite Hk, Hc, Hb, Hq, Hbu.
  rewrite NewFactory_memory. reflexivity.
Qed.

Local Abbreviation run :=
  (run Config clientset_NewForConfig kubernetes_NewForConfig
     dynamic_NewForConfig).

(** No sequence of constructor and setter calls changes the namespace,
    the kubeconfig path, the context, the feature set or the registered
    flags of the factory. *)
Theorem run_keeps_flag_fields calls : forall f,
  Namespace (run calls f).1 = Namespace f
  /\ kubeconfig (run calls f).1 = kubeconfig f
  /\ kubecontext (run calls f).1 = kubecontext f
  /\ features (run calls f).1 = features f
  /\ flags (run calls f).1 = flags f.
Proof.
  induction calls as [|c calls IH]; intros f; [by repeat split|].
  cbn [client.run].
  destruct (call Config clientset_NewForConfig kubernetes_NewForConfig
              dynamic_NewForConfig c f) as [f1 r1] eqn:Hc.
  destruct (IH f1) as (H1 & H2 & H3 & H4 & H5).
  destruct (run calls f1) as [f2 r2]; cbn in *.
  rewrite H1, H2, H3, H4, H5.
  destruct c; cbn in Hc; simplify_eq; by repeat split.
Qed.

(** The constructors read the kubeconfig path, the context, the base
    name, the QPS and the burst of the factory, and nothing else: two
    factories that agree on these five get the same results, whatever their
    namespaces, feature sets and flags. *)
Theorem constructors_read_five_fields f1 f2 :
  kubeconfig f1 = kubeconfig f2 ->
  kubecontext f1 = kubecontext f2 ->
  baseName f1 = baseName f2 ->
  clientQPS f1 = clientQPS f2 ->
  clientBurst f1 = clientBurst f2 ->
  ClientConfig Config f1 = ClientConfig Config f2
  /\ Client Config clientset_NewForConfig f1
     = Client Config clientset_NewForConfig f2
  /\ KubeClient Config kubernetes_NewForConfig f1
     = KubeClient Config kubernetes_NewForConfig f2
  /\ DynamicClient Config dynamic_NewForConfig f1
     = DynamicClient Config dynamic_NewForConfig f2.
Proof.
  intros H1 H2 H3 H4 H5.
  assert (ClientConfig Config f1 = ClientConfig Config f2) as E.
  { unfold ClientConfig. by rewrite H1, H2, H3, H4, H5. }
  unfold Client, KubeClient, DynamicClient. rewrite E. by repeat split.
Qed.

End ConstructorInputs.

Lemma constructors_read_five_fields_witness :
  client.ClientConfig fakes.Config
    (client.this (client.NewFactory "velero" processes.env_and_config).1)
  = client.ClientConfig fakes.Config
      (client.this (client.NewFactory "velero" processes.bare).1)
  /\ client.Client fakes.Config fakes.NewForConfig
       (client.this (client.NewFactory "velero" processes.env_and_config).1)
     = client.Client fakes.Config fakes.NewForConfig
         (client.this (client.NewFactory "velero" processes.bare).1)
  /\ client.KubeClient fakes.Config fakes.NewForConfig
       (client.this (client.NewFactory "velero" processes.env_and_config).1)
     = client.KubeClient fakes.Config fakes.NewForConfig
         (client.this (client.NewFactory "velero" processes.bare).1)
  /\ client.DynamicClient fakes.Config fakes.NewForConfig
       (client.this (client.NewFactory "velero" processes.env_and_config).1)
     = client.DynamicClient fakes.Config fakes.NewForConfig
         (client.this (client.NewFactory "velero" processes.bare).1).
Proof.
  apply (constructors_read_five_fields fakes.Config fakes.NewForConfig
           fakes.NewForConfig fakes.NewForConfig); reflexivity.
Defined.

Lemma ClientConfig_after_parse_witness :
  client.ClientConfig fakes.Config
    (client.this
       (pflag.Parse client.Set_
          (client.BindFlags
             (client.this (client.NewFactory "velero" processes.env_only).1)
             pflag.NewFlagSet)
          [pflag.Long "kubeconfig" "/a"; pflag.Long "kubecontext" "prod";
           pflag.Long "kubeconfig" "/b"]
          (client.NewFactory "velero" processes.env_only).1).1)
  = (Some (fakes.mkRestConfig "/b" "prod" "velero" (S754_zero false) 0%Z),
     None).
Proof.
  apply (ClientConfig_after_parse fakes.Config "velero" processes.env_only
           [pflag.Long "kubeconfig" "/a"; pflag.Long "kubecontext" "prod";
            pflag.Long "kubeconfig" "/b"]).
  vm_compute. reflexivity.
Defined.
